(** * [privacy/server/Address.cpp]

    A shallow embedding of the translation unit [Address.cpp] (namespace
    [libzcash]).

    The translation unit defines two functions,
    [SproutPaymentAddress::GetHash] (lines 11-15) and [ReceivingKey::pk_enc]
    (lines 17-21).  Lines 23-97 are line comments: the Sprout and Sapling
    derivation functions and the validity predicates written there are not
    functions of the program and are not embedded.  Inside the two bodies
    the commented statements are likewise not executed; they record what the
    body was meant to do.  The headers ([Address.hpp], [NoteEncryption.hpp],
    [hash.h], [streams.h]) are not among the sources: the operations of
    theirs that the commented statements of the two bodies name are taken as
    interfaces (type classes) below. *)

From Stdlib Require Import List.
From Stdlib Require Import Strings.Byte.
From ExtLib Require Import Structures.Monad.
Import ListNotations.
Import MonadNotation.
Local Open Scope monad_scope.

Set Implicit Arguments.

(** ** Results of calls and control flow of a function body *)

(** The result of calling a value-returning C++ function: the value of the
    [return] statement that was executed, or no defined value at all. *)
Inductive outcome (A : Type) : Type :=
| Returned (a : A)
| Undefined.

Arguments Returned {A} a.
Arguments Undefined {A}.

#[export] Instance Monad_outcome : Monad outcome :=
{| ret := fun _ a => Returned a;
   bind := fun _ _ c k =>
     match c with
     | Returned a => k a
     | Undefined => Undefined
     end |}.

(** Where control is after the statements of a body have run. *)
Inductive flow (R : Type) : Type :=
| EndOfBody
| ReturnStmt (r : R).

Arguments EndOfBody {R}.
Arguments ReturnStmt {R} r.

(** [return e;] *)
Definition return_ {R : Type} (e : outcome R) : outcome (flow R) :=
  r <- e ;; ret (ReturnStmt r).

(** The closing brace of a body, reached without a [return]. *)
Definition end_of_body {R : Type} : outcome (flow R) := ret EndOfBody.

(** A call of a function whose return type is not [void]: flowing off the
    end of the body gives no defined value. *)
Definition function_body {R : Type} (b : outcome (flow R)) : outcome R :=
  f <- b ;;
  match f with
  | ReturnStmt r => Returned r
  | EndOfBody => Undefined
  end.

Definition defined {A : Type} (o : outcome A) : Prop :=
  exists a, o = Returned a.

(** ** Blobs *)

(** [base_blob<256>]: 32 opaque bytes. *)
Definition WIDTH : nat := 32.

Record uint256 : Type := mk_uint256 { data : list byte }.

(** Modelled from the spec: the default constructor of [uint256] (declared
    in a header that is not among the sources) gives the placeholder zero
    value, all 32 bytes zero. *)
Definition uint256_null : uint256 := mk_uint256 (repeat x00 WIDTH).

(** [uint252]: a [uint256] used for the 252-bit spending key. *)
Record uint252 : Type := mk_uint252 { contents : uint256 }.

(** ** Collaborators *)

(** [NoteEncryption.hpp]: key pair generation of the note encryption. *)
Class NoteEncryption : Type :=
{ generate_privkey : uint252 -> uint256;
  generate_pubkey : uint256 -> uint256 }.

(** ** The two functions the translation unit defines *)

Module ReceivingKey.

(** [class ReceivingKey : public uint256]. *)
Record t : Type := mk { sk_enc_bytes : uint256 }.

(** Lines 17-21:
<<
uint256 ReceivingKey::pk_enc() const {
    // return ZCNoteEncryption::generate_pubkey( *this );
    uint256 result;
    return result;
}
>> *)
Definition pk_enc_body (this : t) : outcome (flow uint256) :=
  let result := uint256_null in
  return_ (ret result).

Definition pk_enc (this : t) : outcome uint256 :=
  function_body (pk_enc_body this).

End ReceivingKey.

Module SproutPaymentAddress.

Record t : Type := mk { a_pk : uint256; pk_enc : uint256 }.

(** Lines 11-15: the three statements of the body are commented out, the
    body is empty.
<<
uint256 SproutPaymentAddress::GetHash() const {
    // CDataStream ss(SER_NETWORK, PROTOCOL_VERSION);
    // ss << *this;
    // return Hash(ss.begin(), ss.end());
}
>> *)
Definition GetHash_body (this : t) : outcome (flow uint256) :=
  end_of_body.

Definition GetHash (this : t) : outcome uint256 :=
  function_body (GetHash_body this).

End SproutPaymentAddress.

(** [hash.h] and [streams.h]: the canonical serialization of an address
    and the 256-bit hash of a byte string. *)
Class Hashing : Type :=
{ Serialize : SproutPaymentAddress.t -> list byte;
  Hash : list byte -> uint256 }.

(** ** Deterministic stand-ins for the collaborators *)

(** The blob [u] with its first byte replaced by [b]. *)
Definition set_first (b : byte) (u : uint256) : uint256 :=
  mk_uint256 (b :: tl (data u)).

Definition stub_NoteEncryption : NoteEncryption :=
{| generate_privkey := fun a_sk => set_first x0e (contents a_sk);
   generate_pubkey := fun sk_enc => set_first x0f sk_enc |}.

Definition stub_Hashing : Hashing :=
{| Serialize := fun addr =>
     data (SproutPaymentAddress.a_pk addr) ++ data (SproutPaymentAddress.pk_enc addr);
   Hash := fun bytes => mk_uint256 (firstn WIDTH (bytes ++ repeat x00 WIDTH)) |}.

(** The Sprout spending key [0x00...01]. *)
Definition sprout_test_key : uint252 :=
  mk_uint252 (mk_uint256 (repeat x00 31 ++ [x01])).

(** The address with both fields all-zero. *)
Definition null_address : SproutPaymentAddress.t :=
  SproutPaymentAddress.mk uint256_null uint256_null.

(** ** Closed forms of the operations *)

Lemma function_body_return (R : Type) (r : R) :
  function_body (return_ (ret r)) = Returned r.
Proof. reflexivity. Qed.

Lemma function_body_end (R : Type) :
  function_body (@end_of_body R) = Undefined.
Proof. reflexivity. Qed.

Lemma defined_Returned (A : Type) (a : A) : defined (Returned a).
Proof. exists a. reflexivity. Qed.

Lemma not_defined_Undefined (A : Type) : ~ defined (@Undefined A).
Proof. intros [a Ha]. discriminate Ha. Qed.

Create HintDb address.
#[local] Hint Resolve defined_Returned not_defined_Undefined : address.

Lemma pk_enc_returns (rk : ReceivingKey.t) :
  ReceivingKey.pk_enc rk = Returned uint256_null.
Proof. reflexivity. Qed.

(** ** [ReceivingKey::pk_enc] *)

(** C1 (the code departs from it): [ReceivingKey::pk_enc] does not apply the
    public-key generation to the receiving key.  For every pair of receiving
    keys it returns one and the same value, the default-constructed all-zero
    [uint256]. *)
Theorem pk_enc_is_constant (rk rk' : ReceivingKey.t) :
  ReceivingKey.pk_enc rk = Returned uint256_null /\
  ReceivingKey.pk_enc rk = ReceivingKey.pk_enc rk'.
Proof. rewrite !pk_enc_returns. split; reflexivity. Qed.

(** With the stand-in key pair generation the value returned for the
    receiving key of the Sprout test key is not its public key. *)
Example pk_enc_differs_from_generate_pubkey :
  let rk := ReceivingKey.mk
              (@generate_privkey stub_NoteEncryption sprout_test_key) in
  ReceivingKey.pk_enc rk <>
  Returned (@generate_pubkey stub_NoteEncryption (ReceivingKey.sk_enc_bytes rk)).
Proof. cbv zeta. rewrite pk_enc_returns. vm_compute. discriminate. Qed.

(** ** [SproutPaymentAddress::GetHash] *)

(** C2 (the code departs from it): whatever the serialization and the hash
    are, [GetHash] does not return the digest of the serialized address; it
    returns no digest. *)
Theorem GetHash_is_not_the_digest {H : Hashing} (addr : SproutPaymentAddress.t) :
  SproutPaymentAddress.GetHash addr <> Returned (Hash (Serialize addr)).
Proof.
  unfold SproutPaymentAddress.GetHash, SproutPaymentAddress.GetHash_body.
  rewrite function_body_end. discriminate.
Qed.

(** With the stand-in serialization and hash, the digest of the all-zero
    address would be a value; the call gives none. *)
Example GetHash_of_null_address :
  defined (Returned (@Hash stub_Hashing (@Serialize stub_Hashing null_address))) /\
  SproutPaymentAddress.GetHash null_address = Undefined.
Proof. split; [apply defined_Returned | reflexivity]. Qed.

(** C10: in every call of [GetHash] control arrives at the end of the body
    with no [return] statement executed, and the call has no defined 256-bit
    value. *)
Theorem GetHash_flows_off_the_end (addr : SproutPaymentAddress.t) :
  SproutPaymentAddress.GetHash_body addr = Returned EndOfBody /\
  SproutPaymentAddress.GetHash addr = Undefined /\
  (forall digest : uint256, SproutPaymentAddress.GetHash addr <> Returned digest).
Proof.
  repeat split.
  intros digest E. discriminate E.
Qed.

(** C9 (the code departs from it): [GetHash] is not total.  For no payment
    address does a call of it have a defined output. *)
Theorem GetHash_not_total (addr : SproutPaymentAddress.t) :
  ~ defined (SproutPaymentAddress.GetHash addr).
Proof.
  unfold SproutPaymentAddress.GetHash, SproutPaymentAddress.GetHash_body.
  rewrite function_body_end. auto with address.
Qed.
